(** * Verification of the Discord front end of cmd_line_bot

    Shallow embedding of [src/cmd_line_bot/ends/discord_frontend.py]:
    - Python [str] values are lists of Unicode code points ([list Z]);
      [len] is [length].
    - The [DiscordConfig] object together with the [discord.Client] it
      holds is the record [cworld]; the output front end adds its own
      [initial_msg] flag ([world]).
    - Methods run in a small state/exception/writer monad: every effect
      visible on the chat platform (a sent message, a sent file) and every
      callback invocation is emitted in order into the writer log.
      A raised exception stops the method, keeping the effects done so far. *)

From Stdlib Require Import ZArith List String Ascii Bool Lia.
From stdpp Require Import base gmap strings.
Import ListNotations.
Open Scope Z_scope.

(* ------------------------------------------------------------------ *)
(** ** Python strings *)

(** A Python [str]: a sequence of code points. *)
Abbreviation str := (list Z).

(** ASCII literal to code points. *)
Definition zstr (s : string) : str :=
  map (fun a => Z.of_nat (nat_of_ascii a)) (list_ascii_of_string s).

Definition nl : Z := 10.

(** [str.isspace] on one code point (Python's whitespace set, used by
    [str.split()] without separator). *)
Definition is_space (c : Z) : bool :=
  ((9 <=? c) && (c <=? 13)) || ((28 <=? c) && (c <=? 32)) ||
  (c =? 133) || (c =? 160) || (c =? 5760) ||
  ((8192 <=? c) && (c <=? 8202)) || (c =? 8232) || (c =? 8233) ||
  (c =? 8239) || (c =? 8287) || (c =? 12288).

(** [s.split("\n")]: the pieces between newlines; [""] gives [[""]]. *)
Fixpoint split_nl (s : str) : list str :=
  match s with
  | [] => [[]]
  | c :: r =>
      if c =? nl then [] :: split_nl r
      else match split_nl r with
           | [] => [[c]]
           | h :: t => (c :: h) :: t
           end
  end.

(** [s.split()]: maximal runs of non-whitespace code points; [cur] is the
    word being read, reversed. *)
Fixpoint split_ws_aux (s : str) (cur : str) : list str :=
  match s with
  | [] => match cur with [] => [] | _ => [rev cur] end
  | c :: r =>
      if is_space c then
        match cur with
        | [] => split_ws_aux r []
        | _ => rev cur :: split_ws_aux r []
        end
      else split_ws_aux r (c :: cur)
  end.

Definition split_ws (s : str) : list str := split_ws_aux s [].

(* ------------------------------------------------------------------ *)
(** ** [DiscordOutputFrontEnd.split_text] and [fix_content] *)

Definition max_len : nat := 2000.

(** [result[-1]]; [result] starts as [[""]] and only grows, so the
    default is never used. *)
Definition result_last (result : list str) : str := List.last result [].

(** One iteration of the [for line in newline_splitted] loop. *)
Definition split_step (result : list str) (line : str) : list str :=
  if Nat.ltb (length (result_last result) + length line) max_len
  then removelast result ++ [result_last result ++ line ++ [nl]]
  else result ++ [line ++ [nl]].

Definition split_text (text : str) : list str :=
  let newline_splitted := split_nl text in
  fold_left split_step newline_splitted [[]].

Definition empty_placeholder : str := zstr "<EMPTY STRING>".

Definition fix_content (content : str) : str :=
  if Nat.eqb (length (split_ws content)) 0 then empty_placeholder
  else content.

(* ------------------------------------------------------------------ *)
(** ** Platform objects (discord.py) *)

Record Channel := { channel_name : str; channel_is_text : bool }.

(** A [discord.Member]: [name], [nick] (or [None]), [discriminator]. *)
Record Member := {
  member_name : str;
  member_nick : option str;
  member_discriminator : str
}.

(** A [discord.Server]: [name], [channels], [members]. *)
Record Server := {
  server_name : str;
  server_channels : list Channel;
  server_members : list Member
}.

(** discord.py's [Server.get_member_named] (library code the front end
    calls, not part of this repository): a name of more than 5 characters
    whose fifth-from-last character is ['#'] is first tried as
    [name#discriminator] ([utils.get(members, name=name[:-5],
    discriminator=name[-4:])]); otherwise, or when that finds no one, the
    first member whose [nick] or [name] equals the name
    ([utils.find(pred, members)]). *)
Definition server_get_member_named (s : Server) (name : str) : option Member :=
  let members := server_members s in
  let result :=
    if Nat.ltb 5 (length name) && Z.eqb (nth (length name - 5) name 0) 35
    then List.find (fun m =>
           bool_decide (member_name m = firstn (length name - 5) name) &&
           bool_decide (member_discriminator m = skipn (length name - 4) name))
         members
    else None in
  match result with
  | Some m => Some m
  | None =>
      List.find (fun m => bool_decide (member_nick m = Some name) ||
                          bool_decide (member_name m = name)) members
  end.

(** What a message can be sent to, and what [msg.channel] can be:
    a [discord.Channel], a [discord.User]/member, a
    [discord.PrivateChannel], or any other object. *)
Inductive target :=
| TChannel (c : Channel)
| TUser (u : Member)
| TPrivate
| TOther.

(** [CLBCmdLine_Msg] and [CLBCmdLine_DM]. *)
Inductive cmdline :=
| CmdLine_Msg (content author channelname : str)
| CmdLine_DM (content author : str).

(** Observable effects, in the order they happen. *)
Inductive event :=
| SendMessage (destination : target) (content : str)   (* client.send_message *)
| SendFile (destination : target) (fp : str) (content : option str)
                                                      (* client.send_file *)
| Callback (c : cmdline).                             (* callback(cmdline) *)

(** The [CLBError]s raised by this file. *)
Inductive clb_error :=
| ErrMissingToken (config_path : str)
| ErrServerNotConfigured
| ErrInitContext (init_cmd : str)
| ErrBadChannel (channelname : str) (channels : list str)
| ErrBadUser (username : str) (users : list str).

Inductive error :=
| CLBError (e : clb_error)
| TypeError
| AttributeError
| IndexError
| OSError
| UnboundLocalError
| WaitsForever.  (* the call blocks for good: nothing after it runs *)

(* ------------------------------------------------------------------ *)
(** ** State, exception and writer monad *)

Definition ST (S A : Type) : Type := S -> (error + A) * S * list event.

Global Instance ST_ret {S} : MRet (ST S) := fun A x s => (inr x, s, []).
Global Instance ST_bind {S} : MBind (ST S) := fun A B k m s =>
  match m s with
  | (inl e, s', o) => (inl e, s', o)
  | (inr x, s', o) =>
      match k x s' with (r, s'', o') => (r, s'', o ++ o') end
  end.

Definition raise {S A} (e : error) : ST S A := fun s => (inl e, s, []).
Definition gets {S A} (f : S -> A) : ST S A := fun s => (inr (f s), s, []).
Definition modify {S} (f : S -> S) : ST S unit := fun s => (inr tt, f s, []).
Definition emit {S} (ev : event) : ST S unit := fun s => (inr tt, s, [ev]).

(** [for x in l: body(x)] *)
Fixpoint for_ {S A} (l : list A) (body : A -> ST S unit) : ST S unit :=
  match l with
  | [] => mret tt
  | x :: r => body x ;; for_ r body
  end.

(* ------------------------------------------------------------------ *)
(** ** [DiscordConfig] and its [discord.Client] *)

Record cworld := {
  cw_data : gmap (str * str) str;   (* the CLBData store *)
  cw_config_path : str;             (* data.get_config_path() *)
  cw_category : str;                (* self.data_category *)
  cw_server : option Server;        (* self.server *)
  cw_trying_login : bool;           (* self._trying_login *)
  cw_servers : list Server;         (* client.servers *)
  cw_logged_in : bool;              (* client.is_logged_in *)
  cw_files : list str;              (* paths os.path.getsize can stat *)
  cw_accepted_tokens : list str     (* tokens the platform logs in with *)
}.

Definition with_server (sv : option Server) (c : cworld) : cworld :=
  {| cw_data := cw_data c; cw_config_path := cw_config_path c;
     cw_category := cw_category c; cw_server := sv;
     cw_trying_login := cw_trying_login c; cw_servers := cw_servers c;
     cw_logged_in := cw_logged_in c; cw_files := cw_files c;
     cw_accepted_tokens := cw_accepted_tokens c |}.

Definition with_data (d : gmap (str * str) str) (c : cworld) : cworld :=
  {| cw_data := d; cw_config_path := cw_config_path c;
     cw_category := cw_category c; cw_server := cw_server c;
     cw_trying_login := cw_trying_login c; cw_servers := cw_servers c;
     cw_logged_in := cw_logged_in c; cw_files := cw_files c;
     cw_accepted_tokens := cw_accepted_tokens c |}.

Definition with_login (trying logged : bool) (c : cworld) : cworld :=
  {| cw_data := cw_data c; cw_config_path := cw_config_path c;
     cw_category := cw_category c; cw_server := cw_server c;
     cw_trying_login := trying; cw_servers := cw_servers c;
     cw_logged_in := logged; cw_files := cw_files c;
     cw_accepted_tokens := cw_accepted_tokens c |}.

(** Modelled from the spec: [CLBData.get_config] (core/clb_data.py, not
    in the sources), the configuration collaborator's
    [get(category, key) -> optional string]. *)
Definition get_config (category key : str) : ST cworld (option str) :=
  gets (fun c => cw_data c !! (category, key)).

(** Modelled from the spec: [CLBData.set_data], the configuration
    collaborator's [set(category, key, value)] on the same store. *)
Definition set_data (category key value : str) : ST cworld unit :=
  modify (fun c => with_data (<[(category, key) := value]> (cw_data c)) c).

Definition get_token : ST cworld str :=
  cat ← gets cw_category;
  token ← get_config cat (zstr "token");
  match token with
  | None => path ← gets cw_config_path; raise (CLBError (ErrMissingToken path))
  | Some t => mret t
  end.

Definition set_server (server : Server) : ST cworld unit :=
  modify (with_server (Some server)) ;;
  cat ← gets cw_category;
  set_data cat (zstr "servername") (server_name server).

Fixpoint set_server_named_loop (servername : str) (servers : list Server)
  : ST cworld bool :=
  match servers with
  | [] => mret false
  | server :: rest =>
      if bool_decide (servername = server_name server)
      then set_server server ;; mret true
      else set_server_named_loop servername rest
  end.

Definition set_server_named (servername : str) : ST cworld bool :=
  servers ← gets cw_servers;
  set_server_named_loop servername servers.

Definition get_server : ST cworld (option Server) :=
  sv ← gets cw_server;
  match sv with
  | None =>
      cat ← gets cw_category;
      servername ← get_config cat (zstr "servername");
      match servername with
      | None => raise (CLBError ErrServerNotConfigured)
      | Some n => set_server_named n ;; mret tt
      end
  | Some _ => mret tt
  end ;;
  gets cw_server.

Definition reply_to_msg (text : str) (channel : target) : ST cworld unit :=
  emit (SendMessage channel text).

Definition get_channel_named (channelname : str) : ST cworld (option Channel) :=
  server ← get_server;
  match server with
  | None => mret None
  | Some s =>
      mret (List.find (fun ch => bool_decide (channelname = channel_name ch))
                      (server_channels s))
  end.

Definition get_user_named (username : str) : ST cworld (option Member) :=
  server ← get_server;
  match server with
  | None => mret None
  | Some s => mret (server_get_member_named s username)
  end.

(** [run_client], run sequentially.  [client.run(token)] on its thread
    logs in when the platform accepts the token; otherwise it fails on that
    thread, the client never becomes ready and
    [wait_until_ready().result()] waits for good.  With [_trying_login]
    set no other login is in flight (nothing runs concurrently here), so
    that wait never ends either.  [client.event(on_ready)] only prints. *)
Definition run_client : ST cworld unit :=
  logged ← gets cw_logged_in;
  if (logged : bool) then mret tt else
  trying ← gets cw_trying_login;
  if (trying : bool) then raise WaitsForever else
  modify (fun c => with_login true (cw_logged_in c) c) ;;
  token ← get_token;
  accepted ← gets cw_accepted_tokens;
  if bool_decide (token ∈ accepted) then
    modify (with_login true true) ;;
    modify (with_login false true)
  else raise WaitsForever.

Definition get_channelnames : ST cworld (list str) :=
  sv ← gets cw_server;
  match sv with
  | None => mret []
  | Some s => mret (map channel_name (filter channel_is_text (server_channels s)))
  end.

Definition get_usernames : ST cworld (list str) :=
  sv ← gets cw_server;
  match sv with
  | None => mret []
  | Some s => mret (map member_name (server_members s))
  end.

(* ------------------------------------------------------------------ *)
(** ** [DiscordInputFrontEnd] *)

(** A [discord.Message]: [content], [author.name], [channel], [server]. *)
Record message := {
  msg_content : str;
  msg_author : str;
  msg_channel : target;
  msg_server : option Server
}.

(** "initしました" *)
Definition init_ack : str := [105; 110; 105; 116; 12375; 12414; 12375; 12383].

Definition init_client (init_cmd : str) (msg : message) : ST cworld unit :=
  match msg_server msg with
  | None => raise (CLBError (ErrInitContext init_cmd))
  | Some server =>
      set_server server ;;
      reply_to_msg init_ack (msg_channel msg)
  end.

(** [on_message]; [callback(cmdline)] is the [Callback] event.  When
    [msg.channel] is neither a [Channel] nor a [PrivateChannel],
    [cmdline] is unbound at the call. *)
Definition on_message (init_cmd : str) (msg : message) : ST cworld unit :=
  (if bool_decide (msg_content msg = init_cmd)
   then init_client init_cmd msg else mret tt) ;;
  match msg_channel msg with
  | TChannel ch =>
      emit (Callback (CmdLine_Msg (msg_content msg) (msg_author msg)
                                  (channel_name ch)))
  | TPrivate =>
      emit (Callback (CmdLine_DM (msg_content msg) (msg_author msg)))
  | _ => raise UnboundLocalError
  end.

(* ------------------------------------------------------------------ *)
(** ** Python keyword arguments *)

(** The values passed to [_send_message] and [_send_file]. *)
Inductive pyval :=
| VClient
| VDest (d : target)
| VStr (s : str)
| VNone.

Definition pyopt (o : option str) : pyval :=
  match o with Some s => VStr s | None => VNone end.

(** Binding keyword arguments to a parameter list without defaults:
    an unexpected keyword or a missing parameter is a [TypeError] ([None]);
    otherwise the values in parameter order. *)
Definition bind_kwargs (params : list string) (kwargs : list (string * pyval))
  : option (list pyval) :=
  if forallb (fun kv => existsb (String.eqb (fst kv)) params) kwargs
  then mapM (fun p => snd <$> List.find (fun kv => String.eqb (fst kv) p) kwargs)
            params
  else None.

(* ------------------------------------------------------------------ *)
(** ** [DiscordOutputFrontEnd] *)

Definition _send_message_body (destination : target) (content : pyval)
  : ST cworld unit :=
  match content with
  | VStr text =>
      for_ (split_text text) (fun splitted =>
        emit (SendMessage destination (fix_content splitted)))
  | _ => raise AttributeError          (* None.split("\n") *)
  end.

(** [l[-1]] *)
Definition py_last {A} (l : list A) : option A :=
  match l with [] => None | x :: r => Some (List.last r x) end.

Definition _send_file_body (destination : target) (fp : str) (content : pyval)
  : ST cworld unit :=
  files ← gets cw_files;
  if bool_decide (fp ∈ files) then          (* os.path.getsize(fp) *)
    match content with
    | VNone => emit (SendFile destination fp None)
    | VStr text =>
        let splitted_text := split_text text in
        for_ (removelast splitted_text) (fun splitted =>
          emit (SendMessage destination (fix_content splitted))) ;;
        match py_last splitted_text with
        | None => raise IndexError
        | Some last_seg => emit (SendFile destination fp (Some last_seg))
        end
    | _ => raise AttributeError
    end
  else raise OSError.

(** The calls [self._send_message(...)] and [self._send_file(...)] with keyword arguments.
    Values of a kind the callers never pass end in [TypeError]. *)
Definition _send_message (kwargs : list (string * pyval)) : ST cworld unit :=
  match bind_kwargs ["client"; "destination"; "content"]%string kwargs with
  | Some [_; VDest destination; content] => _send_message_body destination content
  | _ => raise TypeError
  end.

Definition _send_file (kwargs : list (string * pyval)) : ST cworld unit :=
  match bind_kwargs ["client"; "destination"; "fp"; "content"]%string kwargs with
  | Some [_; VDest destination; VStr fp; content] =>
      _send_file_body destination fp content
  | _ => raise TypeError
  end.

(** The output front end: its [config] and its [initial_msg] flag. *)
Record world := { w_config : cworld; w_initial_msg : bool }.

Definition lift {A} (m : ST cworld A) : ST world A := fun w =>
  match m (w_config w) with
  | (r, c', o) => (r, {| w_config := c'; w_initial_msg := w_initial_msg w |}, o)
  end.

Definition initial_text : str :=
  zstr "-------------------- New Session Start --------------------".

Definition _send_msg (channelname : str) (text : option str)
  (filename : option str) : ST world unit :=
  channel ← lift (get_channel_named channelname);
  match channel with
  | None =>
      names ← lift get_channelnames;
      raise (CLBError (ErrBadChannel channelname names))
  | Some ch =>
      initial ← gets w_initial_msg;
      (if (initial : bool) then
         lift (emit (SendMessage (TChannel ch) initial_text)) ;;
         modify (fun w => {| w_config := w_config w; w_initial_msg := false |})
       else mret tt) ;;
      match filename with
      | None =>
          lift (_send_message [("client", VClient);
                               ("destination", VDest (TChannel ch));
                               ("content", pyopt text)]%string)
      | Some fn =>
          lift (_send_file [("client", VClient);
                            ("destination", VDest (TChannel ch));
                            ("fp", VStr fn); ("content", pyopt text)]%string)
      end
  end.

Definition _send_dm (username : str) (text : option str)
  (filename : option str) : ST cworld unit :=
  user ← get_user_named username;
  match user with
  | None =>
      names ← get_usernames;
      raise (CLBError (ErrBadUser username names))
  | Some u =>
      match filename with
      | None =>
          _send_message [("client", VClient); ("destination", VDest (TUser u));
                         ("content", pyopt text)]%string
      | Some fn =>
          _send_file [("client", VClient); ("destinaion", VDest (TUser u));
                      ("fp", VStr fn); ("content", pyopt text)]%string
      end
  end.

Definition send_msg (channelname : str) (text : option str)
  (filename : option str) : ST world unit :=
  lift run_client ;; _send_msg channelname text filename.

Definition send_dm (username : str) (text : option str)
  (filename : option str) : ST world unit :=
  lift (run_client ;; _send_dm username text filename).

(** The configuration after [set_server s]. *)
Definition bind_server (s : Server) (c : cworld) : cworld :=
  with_data (<[(cw_category c, zstr "servername") := server_name s]> (cw_data c))
            (with_server (Some s) c).

(* ------------------------------------------------------------------ *)
(** ** A concrete deployment, for the examples below *)

Definition ex_general : Channel :=
  {| channel_name := zstr "general"; channel_is_text := true |}.

Definition ex_bob : Member :=
  {| member_name := zstr "bob"; member_nick := Some (zstr "rob");
     member_discriminator := zstr "0001" |}.

Definition ex_alpha : Server :=
  {| server_name := zstr "Alpha"; server_channels := [ex_general];
     server_members := [ex_bob] |}.

(** A logged-in client that sees [ex_alpha]; the store holds the token
    and, when [bound] is set, the server name; [f.txt] exists. *)
Definition ex_config (server : option Server) (bound : bool) : cworld :=
  {| cw_data := <[(zstr "discord", zstr "token") := zstr "tok"]>
                  (if bound then {[(zstr "discord", zstr "servername") := zstr "Alpha"]}
                   else ∅);
     cw_config_path := zstr "config.ini"; cw_category := zstr "discord";
     cw_server := server; cw_trying_login := false; cw_servers := [ex_alpha];
     cw_logged_in := true; cw_files := [zstr "f.txt"];
     cw_accepted_tokens := [zstr "tok"] |}.

(** A fresh output front end over [ex_config (Some ex_alpha) true]. *)
Definition ex_world : world :=
  {| w_config := ex_config (Some ex_alpha) true; w_initial_msg := true |}.

(** The same store and client, but the client sees no server. *)
Definition ex_config_no_servers : cworld :=
  {| cw_data := cw_data (ex_config None true);
     cw_config_path := zstr "config.ini"; cw_category := zstr "discord";
     cw_server := None; cw_trying_login := false; cw_servers := [];
     cw_logged_in := true; cw_files := [zstr "f.txt"];
     cw_accepted_tokens := [zstr "tok"] |}.

(** A client not yet logged in, with an empty store (no token). *)
Definition ex_config_no_token : cworld :=
  {| cw_data := ∅;
     cw_config_path := zstr "config.ini"; cw_category := zstr "discord";
     cw_server := None; cw_trying_login := false; cw_servers := [ex_alpha];
     cw_logged_in := false; cw_files := [];
     cw_accepted_tokens := [zstr "tok"] |}.


(** Two more servers: [ex_beta], and [ex_alpha2], which bears the same
    name as [ex_alpha] but has no channel and no member. *)
Definition ex_beta : Server :=
  {| server_name := zstr "Beta"; server_channels := []; server_members := [] |}.

Definition ex_alpha2 : Server :=
  {| server_name := zstr "Alpha"; server_channels := []; server_members := [] |}.

(** A logged-in client that sees [ex_beta], [ex_alpha], [ex_alpha2] in
    this order, nothing bound yet. *)
Definition ex_config_dup : cworld :=
  {| cw_data := {[(zstr "discord", zstr "token") := zstr "tok"]};
     cw_config_path := zstr "config.ini"; cw_category := zstr "discord";
     cw_server := None; cw_trying_login := false;
     cw_servers := [ex_beta; ex_alpha; ex_alpha2];
     cw_logged_in := true; cw_files := [];
     cw_accepted_tokens := [zstr "tok"] |}.

(* ================================================================== *)
(** * Properties *)

(* ------------------------------------------------------------------ *)
(** ** Segmentation *)

Section Segmentation.

Lemma split_step_not_nil (result : list str) (line : str) :
  split_step result line <> [].
Proof.
  unfold split_step. destruct (Nat.ltb _ _);
    intros H; apply app_eq_nil in H as [_ H]; discriminate.
Qed.

Lemma split_step_concat (result : list str) (line : str) :
  result <> [] ->
  concat (split_step result line) = concat result ++ line ++ [nl].
Proof.
  intros Hne. unfold split_step, result_last.
  destruct (Nat.ltb _ _).
  - replace (concat result)
      with (concat (removelast result ++ [List.last result []]))
      by (rewrite <- app_removelast_last; auto).
    rewrite !concat_app. simpl. rewrite ?app_nil_r, <- ?app_assoc. reflexivity.
  - rewrite concat_app. simpl. rewrite app_nil_r. reflexivity.
Qed.

Lemma split_step_last (result : list str) (line : str) :
  exists s, result_last (split_step result line) = s ++ [nl].
Proof.
  unfold split_step, result_last. destruct (Nat.ltb _ _);
    rewrite List.last_last.
  - exists (List.last result [] ++ line). rewrite <- app_assoc. reflexivity.
  - exists line. reflexivity.
Qed.

Lemma fold_split_step_concat (lines : list str) (result : list str) :
  result <> [] ->
  concat (fold_left split_step lines result)
  = concat result ++ concat (map (fun l => l ++ [nl]) lines).
Proof.
  revert result. induction lines as [|line lines IH]; intros result Hne; simpl.
  - rewrite app_nil_r. reflexivity.
  - rewrite IH by apply split_step_not_nil.
    rewrite split_step_concat by exact Hne. rewrite <- !app_assoc. reflexivity.
Qed.

Lemma fold_split_step_not_nil (lines : list str) (result : list str) :
  result <> [] -> fold_left split_step lines result <> [].
Proof.
  revert result. induction lines as [|line lines IH]; intros result Hne; simpl.
  - exact Hne.
  - apply IH, split_step_not_nil.
Qed.

Lemma fold_split_step_last (line : str) (lines : list str) (result : list str) :
  exists s, result_last (fold_left split_step (line :: lines) result) = s ++ [nl].
Proof.
  simpl. revert result line. induction lines as [|l lines IH]; intros result line.
  - apply split_step_last.
  - simpl. apply IH.
Qed.

Lemma split_nl_not_nil (s : str) : split_nl s <> [].
Proof.
  induction s as [|c r IH]; simpl; [discriminate|].
  destruct (c =? nl); [discriminate|]. destruct (split_nl r); discriminate.
Qed.

(** Re-joining the pieces of [s.split("\n")], each followed by a newline. *)
Lemma split_nl_join (s : str) :
  concat (map (fun l => l ++ [nl]) (split_nl s)) = s ++ [nl].
Proof.
  induction s as [|c r IH]; simpl; [reflexivity|].
  destruct (c =? nl) eqn:Hc.
  - apply Z.eqb_eq in Hc. subst c. simpl. rewrite IH. reflexivity.
  - destruct (split_nl r) as [|h t].
    + exfalso. simpl in IH. symmetry in IH. apply app_eq_nil in IH as [_ H].
      discriminate.
    + simpl in *. rewrite IH. reflexivity.
Qed.

(** The segments, concatenated, are the text with one newline appended. *)
Lemma split_text_concat (text : str) :
  concat (split_text text) = text ++ [nl].
Proof.
  unfold split_text. rewrite fold_split_step_concat by discriminate.
  rewrite split_nl_join. reflexivity.
Qed.

Lemma split_text_not_nil (text : str) : split_text text <> [].
Proof. unfold split_text. apply fold_split_step_not_nil. discriminate. Qed.

Lemma split_text_last (text : str) :
  exists s, result_last (split_text text) = s ++ [nl].
Proof.
  unfold split_text. pose proof (split_nl_not_nil text) as Hne.
  destruct (split_nl text) as [|line lines]; [congruence|].
  apply fold_split_step_last.
Qed.

End Segmentation.

Lemma py_last_last {A} (l : list A) (d : A) :
  l <> [] -> py_last l = Some (List.last l d).
Proof.
  destruct l as [|x r]; [congruence|]. intros _. simpl.
  f_equal. revert x. induction r as [|y r IH]; intros x; [reflexivity|].
  simpl. rewrite IH. destruct r; reflexivity.
Qed.

(* ------------------------------------------------------------------ *)
(** ** Whitespace test of [fix_content] *)

Lemma split_ws_aux_nil (s cur : str) :
  split_ws_aux s cur = [] <-> cur = [] /\ forallb is_space s = true.
Proof.
  revert cur. induction s as [|c r IH]; intros cur; simpl.
  - destruct cur; split; intros H; try discriminate; try tauto.
    destruct H; discriminate.
  - destruct (is_space c) eqn:Hc; simpl.
    + destruct cur as [|x cur].
      * rewrite IH. tauto.
      * split; [discriminate|]. intros [H _]; discriminate.
    + rewrite IH. split; [intros [H _]; discriminate|].
      intros [_ H]; discriminate.
Qed.

Lemma fix_content_spec (content : str) :
  fix_content content =
  if forallb is_space content then empty_placeholder else content.
Proof.
  unfold fix_content, split_ws.
  destruct (forallb is_space content) eqn:Hs.
  - assert (split_ws_aux content [] = []) as -> by (apply split_ws_aux_nil; auto).
    reflexivity.
  - destruct (split_ws_aux content []) eqn:Hw; [|reflexivity].
    apply split_ws_aux_nil in Hw as [_ Hw]. congruence.
Qed.

(** C1 (code_bug): a line of 1999 characters is under the limit, yet its
    segment (the line and its newline) has length 2000: the test
    [len(result[-1]) + len(line) < max_len] does not count the newline
    that is appended. *)
Theorem split_text_segment_reaches_limit :
  let text := repeat 120 1999 in
  Forall (fun line => (length line < 2000)%nat) (split_nl text) /\
  Exists (fun seg => length seg = 2000%nat) (split_text text).
Proof.
  intros text.
  assert (split_nl text = [text]) as Hl by (vm_compute; reflexivity).
  assert (split_text text = [text ++ [nl]]) as Hs by (vm_compute; reflexivity).
  rewrite Hl, Hs. unfold text. split.
  - constructor; [rewrite repeat_length; lia | constructor].
  - constructor. rewrite length_app, repeat_length. reflexivity.
Qed.

(** C2: the segments, concatenated, contain the characters of the text
    other than newlines, in order: nothing lost, nothing invented. *)
Theorem split_text_lossless (text : str) :
  filter (fun c => negb (c =? nl)) (concat (split_text text)) =
  filter (fun c => negb (c =? nl)) text.
Proof.
  rewrite split_text_concat, filter_app. simpl. apply app_nil_r.
Qed.

(** C10: [split_text] never returns an empty list, so [splitted_text[-1]]
    is defined; its last segment is the tail [s] of the text followed by
    an appended newline, the segments before it being the rest of the
    text. *)
Theorem split_text_last_segment_newline (text : str) :
  split_text text <> [] /\
  exists pre s, split_text text = pre ++ [s ++ [nl]] /\
                py_last (split_text text) = Some (s ++ [nl]) /\
                concat pre ++ s = text.
Proof.
  pose proof (split_text_not_nil text) as Hne.
  destruct (split_text_last text) as [s Hs]. unfold result_last in Hs.
  split; [exact Hne|].
  exists (removelast (split_text text)), s.
  assert (Heq : split_text text = removelast (split_text text) ++ [s ++ [nl]])
    by (rewrite <- Hs; apply app_removelast_last, Hne).
  split; [exact Heq|]. split.
  - rewrite (py_last_last _ [] Hne), Hs. reflexivity.
  - pose proof (split_text_concat text) as Hc. rewrite Heq, concat_app in Hc.
    simpl in Hc. rewrite app_nil_r, app_assoc in Hc.
    apply app_inj_tail in Hc as [Hc _]. exact Hc.
Qed.

(* ------------------------------------------------------------------ *)
(** ** Computations that send nothing *)

Definition silent {S A} (m : ST S A) : Prop := forall s, (m s).2 = [].

Lemma silent_ret {S A} (x : A) : silent (mret x : ST S A).
Proof. intros s. reflexivity. Qed.

Lemma silent_gets {S A} (f : S -> A) : silent (gets f).
Proof. intros s. reflexivity. Qed.

Lemma silent_modify {S} (f : S -> S) : silent (modify f).
Proof. intros s. reflexivity. Qed.

Lemma silent_raise {S A} (e : error) : silent (raise e : ST S A).
Proof. intros s. reflexivity. Qed.

Lemma silent_bind {S A B} (m : ST S A) (k : A -> ST S B) :
  silent m -> (forall x, silent (k x)) -> silent (m ≫= k).
Proof.
  intros Hm Hk s. specialize (Hm s). unfold mbind, ST_bind.
  destruct (m s) as [[[e|x] s'] o]; simpl in *; [exact Hm|].
  specialize (Hk x s'). destruct (k x s') as [[r s''] o']. simpl in *.
  subst. reflexivity.
Qed.

Create HintDb silent.
#[export] Hint Resolve silent_ret silent_gets silent_modify silent_raise : silent.

Ltac silent_tac :=
  repeat first
    [ progress auto with silent
    | apply silent_bind; [| intros ?]
    | match goal with |- silent (match ?x with _ => _ end) => destruct x end
    | match goal with |- silent (if ?x then _ else _) => destruct x end ].

Lemma silent_set_data (c k v : str) : silent (set_data c k v).
Proof. apply silent_modify. Qed.
#[export] Hint Resolve silent_set_data : silent.

Lemma silent_set_server (s : Server) : silent (set_server s).
Proof. unfold set_server, set_data. silent_tac. Qed.
#[export] Hint Resolve silent_set_server : silent.

Lemma silent_set_server_named_loop (n : str) (servers : list Server) :
  silent (set_server_named_loop n servers).
Proof.
  induction servers as [|s rest IH]; simpl; [auto with silent|].
  destruct (bool_decide _); [|exact IH]. silent_tac.
Qed.
#[export] Hint Resolve silent_set_server_named_loop : silent.

Lemma silent_set_server_named (n : str) : silent (set_server_named n).
Proof. unfold set_server_named. silent_tac. Qed.
#[export] Hint Resolve silent_set_server_named : silent.

Lemma silent_get_server : silent get_server.
Proof. unfold get_server, get_config. silent_tac. Qed.
#[export] Hint Resolve silent_get_server : silent.

Lemma silent_get_channel_named (n : str) : silent (get_channel_named n).
Proof. unfold get_channel_named. silent_tac. Qed.

Lemma silent_get_user_named (n : str) : silent (get_user_named n).
Proof. unfold get_user_named. silent_tac. Qed.

Lemma silent_run_client : silent run_client.
Proof. unfold run_client, get_token, get_config. silent_tac. Qed.

(* ------------------------------------------------------------------ *)
(** ** Direct messages with a file *)

(** C4: once the client is logged in and the user name resolves,
    [send_dm] with a file raises [TypeError] (the keyword [destinaion]
    is no parameter of [_send_file], which also lacks its [destination])
    and sends nothing. *)
Theorem send_dm_file_type_error (w : world) (username : str)
  (text : option str) (filename : str) (c1 c2 : cworld) (o1 o2 : list event)
  (u : Member) :
  run_client (w_config w) = (inr tt, c1, o1) ->
  get_user_named username c1 = (inr (Some u), c2, o2) ->
  send_dm username text (Some filename) w =
  (inl TypeError, {| w_config := c2; w_initial_msg := w_initial_msg w |}, []).
Proof.
  intros H1 H2.
  pose proof (silent_run_client (w_config w)) as S1. rewrite H1 in S1.
  pose proof (silent_get_user_named username c1) as S2. rewrite H2 in S2.
  simpl in S1, S2. subst o1 o2.
  unfold send_dm, lift, _send_dm. unfold mbind, ST_bind.
  rewrite H1, H2. reflexivity.
Qed.

(* ------------------------------------------------------------------ *)
(** ** Segments delivered by [_send_message] and [_send_file] *)

Lemma for_emit {S A} (l : list A) (f : A -> event) (s : S) :
  for_ l (fun x => emit (f x)) s = (inr tt, s, map f l).
Proof.
  induction l as [|x r IH]; [reflexivity|]. simpl.
  unfold mbind, ST_bind at 1. simpl. unfold mbind, ST_bind in IH.
  rewrite IH. reflexivity.
Qed.

(** C5 (amended): a segment sent as a plain message is replaced by
    ["<EMPTY STRING>"] exactly when it has no non-whitespace character;
    the last segment, sent with the file, is passed as it is. *)
Theorem delivered_segments_fixed :
  (forall s : str,
     fix_content s = if forallb is_space s then empty_placeholder else s) /\
  (forall (c : cworld) (d : target) (text : str),
     _send_message [("client", VClient); ("destination", VDest d);
                    ("content", VStr text)]%string c =
     (inr tt, c, map (fun seg => SendMessage d (fix_content seg))
                     (split_text text))) /\
  (forall (c : cworld) (d : target) (fp text : str),
     fp ∈ cw_files c ->
     _send_file [("client", VClient); ("destination", VDest d);
                 ("fp", VStr fp); ("content", VStr text)]%string c =
     (inr tt, c, map (fun seg => SendMessage d (fix_content seg))
                     (removelast (split_text text)) ++
                 [SendFile d fp (Some (List.last (split_text text) []))])).
Proof.
  split; [exact fix_content_spec|]. split.
  - intros c d text. unfold _send_message. simpl.
    apply (for_emit _ (fun seg => SendMessage d (fix_content seg))).
  - intros c d fp text Hfp. unfold _send_file. simpl.
    unfold _send_file_body, mbind, ST_bind at 1. simpl.
    rewrite bool_decide_eq_true_2 by exact Hfp.
    unfold mbind, ST_bind at 1.
    rewrite (for_emit _ (fun seg => SendMessage d (fix_content seg))).
    rewrite (py_last_last _ [] (split_text_not_nil text)). reflexivity.
Qed.

Lemma send_dm_file_type_error_witness :
  run_client (w_config ex_world) = (inr tt, w_config ex_world, []) /\
  get_user_named (zstr "bob") (w_config ex_world) =
    (inr (Some ex_bob), w_config ex_world, []) /\
  send_dm (zstr "bob") (Some (zstr "hi")) (Some (zstr "f.txt")) ex_world =
    (inl TypeError, ex_world, []).
Proof.
  split; [reflexivity|]. split; [reflexivity|].
  exact (send_dm_file_type_error ex_world (zstr "bob") (Some (zstr "hi"))
           (zstr "f.txt") _ _ _ _ ex_bob eq_refl eq_refl).
Defined.

Lemma delivered_segments_fixed_witness :
  zstr "f.txt" ∈ cw_files (ex_config None false) /\
  _send_file [("client", VClient); ("destination", VDest (TChannel ex_general));
              ("fp", VStr (zstr "f.txt")); ("content", VStr [])]%string
             (ex_config None false) =
  (inr tt, ex_config None false,
   [SendFile (TChannel ex_general) (zstr "f.txt") (Some [nl])]).
Proof.
  assert (Hfp : zstr "f.txt" ∈ cw_files (ex_config None false))
    by (apply list_elem_of_In; left; reflexivity).
  split; [exact Hfp|].
  exact (proj2 (proj2 delivered_segments_fixed) (ex_config None false)
           (TChannel ex_general) (zstr "f.txt") [] Hfp).
Defined.

(** C5 (counterexample): sending the empty text with a file through
    [send_msg] delivers the whitespace-only segment ["\n"] with the file,
    not the placeholder. *)
Lemma whitespace_segment_sent_with_file :
  forallb is_space [nl] = true /\
  (send_msg (zstr "general") (Some []) (Some (zstr "f.txt")) ex_world).2 =
  [SendMessage (TChannel ex_general) initial_text;
   SendFile (TChannel ex_general) (zstr "f.txt") (Some [nl])].
Proof. split; vm_compute; reflexivity. Qed.

(** C3 (code_bug): through [send_msg] the file goes with the last segment;
    through [send_dm] the same request raises [TypeError] before anything
    is sent, so no unit carries the file. *)
Theorem send_dm_file_delivers_nothing :
  (send_msg (zstr "general") (Some (zstr "hi")) (Some (zstr "f.txt"))
            ex_world).2 =
  [SendMessage (TChannel ex_general) initial_text;
   SendFile (TChannel ex_general) (zstr "f.txt") (Some (zstr "hi" ++ [nl]))] /\
  (send_dm (zstr "bob") (Some (zstr "hi")) (Some (zstr "f.txt")) ex_world).1.1 =
  inl TypeError /\
  (send_dm (zstr "bob") (Some (zstr "hi")) (Some (zstr "f.txt")) ex_world).2 = [].
Proof. split; [|split]; vm_compute; reflexivity. Qed.

(* ------------------------------------------------------------------ *)
(** ** Server binding and name lookups *)

Lemma set_server_run (s : Server) (c : cworld) :
  set_server s c = (inr tt, bind_server s c, []).
Proof. reflexivity. Qed.

Lemma set_server_named_loop_skip (name : str) (pre rest : list Server) (c : cworld) :
  Forall (fun s' => server_name s' <> name) pre ->
  set_server_named_loop name (pre ++ rest) c = set_server_named_loop name rest c.
Proof.
  intros Hpre. induction Hpre as [|s' pre Hs' _ IH]; [reflexivity|].
  simpl. rewrite bool_decide_eq_false_2 by congruence. exact IH.
Qed.

Lemma set_server_named_absent (name : str) (c : cworld) :
  Forall (fun s' => server_name s' <> name) (cw_servers c) ->
  set_server_named name c = (inr false, c, []).
Proof.
  intros H. unfold set_server_named, mbind, ST_bind, gets.
  rewrite <- (app_nil_r (cw_servers c)), set_server_named_loop_skip by exact H.
  reflexivity.
Qed.

Lemma get_server_bound (c : cworld) (s : Server) :
  cw_server c = Some s -> get_server c = (inr (Some s), c, []).
Proof. intros H. unfold get_server, mbind, ST_bind, gets. rewrite H. simpl. rewrite H. reflexivity. Qed.

Lemma get_channel_named_bound (n : str) (c : cworld) (s : Server) :
  cw_server c = Some s ->
  get_channel_named n c =
  (inr (List.find (fun ch => bool_decide (n = channel_name ch)) (server_channels s)),
   c, []).
Proof.
  intros H. unfold get_channel_named, mbind, ST_bind at 1.
  rewrite (get_server_bound c s H). reflexivity.
Qed.

Lemma get_user_named_bound (n : str) (c : cworld) (s : Server) :
  cw_server c = Some s ->
  get_user_named n c = (inr (server_get_member_named s n), c, []).
Proof.
  intros H. unfold get_user_named, mbind, ST_bind at 1.
  rewrite (get_server_bound c s H). reflexivity.
Qed.

Lemma split_at_nth (k : nat) (l : list Z) (d : Z) :
  (k < length l)%nat -> firstn k l ++ nth k l d :: skipn (S k) l = l.
Proof.
  revert k. induction l as [|x l IH]; intros k Hk; simpl in Hk; [lia|].
  destruct k as [|k]; [reflexivity|]. simpl. f_equal. apply IH. lia.
Qed.

Lemma find_all_false {A} (f : A -> bool) (l : list A) :
  List.Forall (fun x => f x = false) l -> List.find f l = None.
Proof. intros H. induction H as [|x l Hx _ IH]; [reflexivity|]. simpl. rewrite Hx. exact IH. Qed.

(** No member is called [n] by name, by nickname or as
    [name#discriminator]: the platform lookup finds no one. *)
Lemma server_get_member_named_absent (s : Server) (n : str) :
  Forall (fun m => member_name m <> n /\ member_nick m <> Some n /\
                   member_name m ++ 35 :: member_discriminator m <> n)
         (server_members s) ->
  server_get_member_named s n = None.
Proof.
  intros H. unfold server_get_member_named.
  assert (Hsnd : List.find (fun m => bool_decide (member_nick m = Some n) ||
                                     bool_decide (member_name m = n))
                           (server_members s) = None).
  { apply find_all_false. eapply List.Forall_impl; [|exact H].
    intros m [H1 [H2 _]]. cbn beta.
    rewrite bool_decide_eq_false_2 by exact H2.
    rewrite bool_decide_eq_false_2 by exact H1. reflexivity. }
  destruct (Nat.ltb 5 (length n) && Z.eqb (nth (length n - 5) n 0) 35) eqn:E;
    [|exact Hsnd].
  apply andb_true_iff in E as [E1 E2].
  apply Nat.ltb_lt in E1. apply Z.eqb_eq in E2.
  rewrite find_all_false; [exact Hsnd|].
  eapply List.Forall_impl; [|exact H].
  intros m [_ [_ H3]]. cbn beta.
  destruct (bool_decide (member_name m = firstn (length n - 5) n)) eqn:Ea;
    [|reflexivity].
  destruct (bool_decide (member_discriminator m = skipn (length n - 4) n)) eqn:Eb;
    [|reflexivity].
  exfalso. apply bool_decide_eq_true_1 in Ea, Eb. apply H3.
  rewrite Ea, Eb, <- E2.
  replace (length n - 4)%nat with (S (length n - 5)) by lia.
  apply split_at_nth. lia.
Qed.

(** C7: a name carried by exactly one visible server binds that server,
    stores its name under [servername] and answers [True]; later lookups
    search that server.  A name carried by no visible server answers
    [False] and changes nothing. *)
Theorem set_server_named_spec :
  (forall (c : cworld) (name : str) (pre : list Server) (s : Server)
          (post : list Server),
     cw_servers c = pre ++ s :: post ->
     server_name s = name ->
     Forall (fun s' => server_name s' <> name) (pre ++ post) ->
     exists c',
       set_server_named name c = (inr true, c', []) /\
       cw_server c' = Some s /\
       cw_data c' !! (cw_category c, zstr "servername") = Some name /\
       (forall n, get_channel_named n c' =
          (inr (List.find (fun ch => bool_decide (n = channel_name ch))
                          (server_channels s)), c', [])) /\
       (forall n, get_user_named n c' =
          (inr (server_get_member_named s n), c', []))) /\
  (forall (c : cworld) (name : str),
     Forall (fun s' => server_name s' <> name) (cw_servers c) ->
     set_server_named name c = (inr false, c, [])).
Proof.
  split; [|intros c name; apply set_server_named_absent].
  intros c name pre s post Hsv Hname Hother.
  apply Forall_app in Hother as [Hpre _].
  exists (bind_server s c). split; [|split; [|split; [|split]]].
  - unfold set_server_named, mbind, ST_bind at 1, gets. simpl.
    rewrite Hsv, set_server_named_loop_skip by exact Hpre. simpl.
    rewrite bool_decide_eq_true_2 by (symmetry; exact Hname). reflexivity.
  - reflexivity.
  - simpl. rewrite lookup_insert_eq. congruence.
  - intros n. apply get_channel_named_bound. reflexivity.
  - intros n. apply get_user_named_bound. reflexivity.
Qed.

Lemma set_server_named_spec_witness :
  (exists c', set_server_named (zstr "Alpha") (ex_config None false) =
              (inr true, c', []) /\ cw_server c' = Some ex_alpha) /\
  set_server_named (zstr "Missing") (ex_config (Some ex_alpha) true) =
    (inr false, ex_config (Some ex_alpha) true, []).
Proof.
  destruct set_server_named_spec as [Hfound Hmissing]. split.
  - destruct (Hfound (ex_config None false) (zstr "Alpha") [] ex_alpha []
                eq_refl eq_refl (List.Forall_nil _)) as [c' [H1 [H2 _]]].
    exists c'. split; [exact H1 | exact H2].
  - apply Hmissing. constructor; [|constructor].
    intros H. vm_compute in H. discriminate.
Defined.

Lemma get_server_unconfigured (c : cworld) :
  cw_server c = None ->
  cw_data c !! (cw_category c, zstr "servername") = None ->
  get_server c = (inl (CLBError ErrServerNotConfigured), c, []).
Proof.
  intros H1 H2. unfold get_server, mbind, ST_bind, gets, get_config, raise.
  rewrite H1. simpl. rewrite H2. reflexivity.
Qed.

Lemma get_server_unknown (c : cworld) (sn : str) :
  cw_server c = None ->
  cw_data c !! (cw_category c, zstr "servername") = Some sn ->
  Forall (fun s' => server_name s' <> sn) (cw_servers c) ->
  get_server c = (inr None, c, []).
Proof.
  intros H1 H2 H3. unfold get_server, mbind, ST_bind, gets, get_config.
  rewrite H1. simpl. rewrite H2, (set_server_named_absent sn c H3).
  simpl. rewrite H1. reflexivity.
Qed.

(** C6 (amended): with no active server and no configured server name the
    lookups raise; with no active server and a configured name that no
    visible server carries they return [None]; with an active server the
    channel lookup returns the first channel of exactly that name ([None]
    when there is none) and the user lookup returns the platform's
    [get_member_named] on that server.  None of these changes the state. *)
Theorem lookups_spec (n : str) :
  (forall c : cworld,
     cw_server c = None ->
     cw_data c !! (cw_category c, zstr "servername") = None ->
     get_channel_named n c = (inl (CLBError ErrServerNotConfigured), c, []) /\
     get_user_named n c = (inl (CLBError ErrServerNotConfigured), c, [])) /\
  (forall (c : cworld) (sn : str),
     cw_server c = None ->
     cw_data c !! (cw_category c, zstr "servername") = Some sn ->
     Forall (fun s' => server_name s' <> sn) (cw_servers c) ->
     get_channel_named n c = (inr None, c, []) /\
     get_user_named n c = (inr None, c, [])) /\
  (forall (c : cworld) (s : Server),
     cw_server c = Some s ->
     get_channel_named n c =
       (inr (List.find (fun ch => bool_decide (n = channel_name ch))
                       (server_channels s)), c, []) /\
     (Forall (fun ch => channel_name ch <> n) (server_channels s) ->
      get_channel_named n c = (inr None, c, [])) /\
     get_user_named n c = (inr (server_get_member_named s n), c, []) /\
     (Forall (fun m => member_name m <> n /\ member_nick m <> Some n /\
                       member_name m ++ 35 :: member_discriminator m <> n)
             (server_members s) ->
      get_user_named n c = (inr None, c, []))).
Proof.
  split; [|split].
  - intros c H1 H2. unfold get_channel_named, get_user_named, mbind, ST_bind at 1 2.
    rewrite (get_server_unconfigured c H1 H2). split; reflexivity.
  - intros c sn H1 H2 H3. unfold get_channel_named, get_user_named, mbind, ST_bind at 1 2.
    rewrite (get_server_unknown c sn H1 H2 H3). split; reflexivity.
  - intros c s H. split; [|split; [|split]].
    + apply get_channel_named_bound, H.
    + intros Hno. rewrite (get_channel_named_bound n c s H). do 2 f_equal.
      induction Hno as [|ch chs Hch _ IH]; [reflexivity|]. simpl.
      rewrite bool_decide_eq_false_2 by congruence. exact IH.
    + apply get_user_named_bound, H.
    + intros Hno. rewrite (get_user_named_bound n c s H).
      rewrite server_get_member_named_absent by exact Hno. reflexivity.
Qed.

Lemma lookups_spec_witness :
  get_channel_named (zstr "general") (ex_config None false) =
    (inl (CLBError ErrServerNotConfigured), ex_config None false, []) /\
  get_user_named (zstr "bob") ex_config_no_servers =
    (inr None, ex_config_no_servers, []) /\
  get_channel_named (zstr "random") (ex_config (Some ex_alpha) true) =
    (inr None, ex_config (Some ex_alpha) true, []) /\
  get_user_named (zstr "alice#0001") (ex_config (Some ex_alpha) true) =
    (inr None, ex_config (Some ex_alpha) true, []).
Proof.
  split; [|split; [|split]].
  - exact (proj1 (proj1 (lookups_spec (zstr "general")) (ex_config None false)
                    eq_refl eq_refl)).
  - refine (proj2 (proj1 (proj2 (lookups_spec (zstr "bob")))
                    ex_config_no_servers (zstr "Alpha") eq_refl eq_refl _)).
    constructor.
  - refine (proj1 (proj2 (proj2 (proj2 (lookups_spec (zstr "random")))
                    (ex_config (Some ex_alpha) true) ex_alpha eq_refl)) _).
    constructor; [|constructor]. intros H. vm_compute in H. discriminate.
  - refine (proj2 (proj2 (proj2 (proj2 (proj2 (lookups_spec (zstr "alice#0001")))
                    (ex_config (Some ex_alpha) true) ex_alpha eq_refl))) _).
    constructor; [|constructor].
    split; [|split]; intros H; vm_compute in H; discriminate.
Defined.

(** C6 (counterexample): with no active server and no configured server
    name, [get_channel_named] raises instead of returning [None]; and with
    [ex_alpha] bound, whose only member is named [bob], [get_user_named]
    returns that member for ["rob"] (his nickname) and for ["bob#0001"]
    (name and discriminator), names no member has. *)
Lemma lookup_unset_server_raises :
  get_channel_named (zstr "general") (ex_config None false) =
    (inl (CLBError ErrServerNotConfigured), ex_config None false, []) /\
  server_members ex_alpha = [ex_bob] /\
  member_name ex_bob <> zstr "rob" /\ member_name ex_bob <> zstr "bob#0001" /\
  get_user_named (zstr "rob") (ex_config (Some ex_alpha) true) =
    (inr (Some ex_bob), ex_config (Some ex_alpha) true, []) /\
  get_user_named (zstr "bob#0001") (ex_config (Some ex_alpha) true) =
    (inr (Some ex_bob), ex_config (Some ex_alpha) true, []).
Proof.
  split; [vm_compute; reflexivity|]. split; [reflexivity|].
  split; [intros H; vm_compute in H; discriminate|].
  split; [intros H; vm_compute in H; discriminate|].
  split; vm_compute; reflexivity.
Qed.

(* ------------------------------------------------------------------ *)
(** ** Inbound messages *)

(** C8: the initialization command sent in a server channel both binds
    that server (with the acknowledgement sent back to the channel) and
    reaches the callback as a channel command line. *)
Theorem on_message_init_and_emit (init_cmd : str) (msg : message)
  (c : cworld) (s : Server) (ch : Channel) :
  msg_content msg = init_cmd ->
  msg_channel msg = TChannel ch ->
  msg_server msg = Some s ->
  on_message init_cmd msg c =
  (inr tt, bind_server s c,
   [SendMessage (TChannel ch) init_ack;
    Callback (CmdLine_Msg init_cmd (msg_author msg) (channel_name ch))]) /\
  cw_server (bind_server s c) = Some s.
Proof.
  intros Hc Hch Hs. split; [|reflexivity].
  unfold on_message. rewrite bool_decide_eq_true_2 by exact Hc.
  unfold init_client. rewrite Hs, Hch, Hc. reflexivity.
Qed.

Lemma on_message_init_and_emit_witness :
  on_message (zstr "!init")
    {| msg_content := zstr "!init"; msg_author := zstr "bob";
       msg_channel := TChannel ex_general; msg_server := Some ex_alpha |}
    (ex_config None false) =
  (inr tt, bind_server ex_alpha (ex_config None false),
   [SendMessage (TChannel ex_general) init_ack;
    Callback (CmdLine_Msg (zstr "!init") (zstr "bob") (channel_name ex_general))]).
Proof.
  exact (proj1 (on_message_init_and_emit (zstr "!init")
                  {| msg_content := zstr "!init"; msg_author := zstr "bob";
                     msg_channel := TChannel ex_general;
                     msg_server := Some ex_alpha |}
                  (ex_config None false) ex_alpha ex_general
                  eq_refl eq_refl eq_refl)).
Defined.

(* ------------------------------------------------------------------ *)
(** ** The session separator *)

(** Case on the outcome of [f k s] for the [k] in the goal. *)
Ltac destruct_call f s :=
  cbn [w_config w_initial_msg];
  match goal with |- context [f ?k s] => destruct (f k s) as [[? ?] ?] end.

Lemma _send_msg_keeps_false (c : cworld) (cn : str) (text filename : option str) :
  w_initial_msg (_send_msg cn text filename
                   {| w_config := c; w_initial_msg := false |}).1.2 = false.
Proof.
  unfold _send_msg, mbind, ST_bind, lift, gets, modify, raise. simpl.
  destruct (get_channel_named cn c) as [[[e|[ch|]] c1] o1]; simpl; [reflexivity| |].
  - destruct filename as [fn|].
    + destruct_call _send_file c1. reflexivity.
    + destruct_call _send_message c1. reflexivity.
  - destruct (get_channelnames c1) as [[[e|names] c2] o2]; reflexivity.
Qed.

(** C9 (amended): only [send_msg] delivers the separator.  While the flag
    is set, a [_send_msg] whose channel resolves sends the separator
    first, then exactly what it sends with the flag cleared; with the flag
    cleared it sends only the content; [send_msg] never sets the flag
    again; [send_dm] neither reads nor changes it. *)
Theorem separator_only_first_send_msg :
  (forall (w : world) (cn : str) (text filename : option str)
          (ch : Channel) (c1 : cworld),
     w_initial_msg w = true ->
     get_channel_named cn (w_config w) = (inr (Some ch), c1, []) ->
     _send_msg cn text filename w =
     let '(r, w', o) :=
       _send_msg cn text filename
         {| w_config := w_config w; w_initial_msg := false |} in
     (r, w', SendMessage (TChannel ch) initial_text :: o)) /\
  (forall (c : cworld) (cn : str) (text filename : option str)
          (ch : Channel) (c1 : cworld),
     get_channel_named cn c = (inr (Some ch), c1, []) ->
     _send_msg cn text filename {| w_config := c; w_initial_msg := false |} =
     lift (match filename with
           | None =>
               _send_message [("client", VClient);
                              ("destination", VDest (TChannel ch));
                              ("content", pyopt text)]%string
           | Some fn =>
               _send_file [("client", VClient);
                           ("destination", VDest (TChannel ch));
                           ("fp", VStr fn); ("content", pyopt text)]%string
           end)
       {| w_config := c1; w_initial_msg := false |}) /\
  (forall (w : world) (cn : str) (text filename : option str),
     w_initial_msg w = false ->
     w_initial_msg (send_msg cn text filename w).1.2 = false) /\
  (forall (c : cworld) (b : bool) (u : str) (text filename : option str),
     send_dm u text filename {| w_config := c; w_initial_msg := b |} =
     let '(r, c', o) := (run_client ;; _send_dm u text filename) c in
     (r, {| w_config := c'; w_initial_msg := b |}, o)).
Proof.
  split; [|split; [|split]].
  - intros [c b] cn text filename ch c1 Hb Hch. simpl in Hb, Hch. subst b.
    unfold _send_msg, mbind, ST_bind, lift, gets, modify. simpl.
    rewrite Hch. simpl.
    destruct filename as [fn|].
    + destruct_call _send_file c1. reflexivity.
    + destruct_call _send_message c1. reflexivity.
  - intros c cn text filename ch c1 Hch.
    unfold _send_msg, mbind, ST_bind, lift, gets. simpl.
    rewrite Hch. simpl.
    destruct filename as [fn|].
    + destruct_call _send_file c1. reflexivity.
    + destruct_call _send_message c1. reflexivity.
  - intros [c b] cn text filename Hb. simpl in Hb. subst b.
    unfold send_msg, mbind, ST_bind at 1, lift at 1. simpl.
    destruct (run_client c) as [[[e|[]] c1] o1]; [reflexivity|].
    pose proof (_send_msg_keeps_false c1 cn text filename) as H.
    destruct (_send_msg cn text filename _) as [[r w'] o]. exact H.
  - intros c b u text filename. reflexivity.
Qed.

Lemma separator_only_first_send_msg_witness :
  get_channel_named (zstr "general") (w_config ex_world) =
    (inr (Some ex_general), w_config ex_world, []) /\
  _send_msg (zstr "general") (Some (zstr "hi")) None ex_world =
    (let '(r, w', o) :=
       _send_msg (zstr "general") (Some (zstr "hi")) None
         {| w_config := w_config ex_world; w_initial_msg := false |} in
     (r, w', SendMessage (TChannel ex_general) initial_text :: o)) /\
  _send_msg (zstr "general") (Some (zstr "hi")) None
    {| w_config := w_config ex_world; w_initial_msg := false |} =
    lift (_send_message [("client", VClient);
                         ("destination", VDest (TChannel ex_general));
                         ("content", pyopt (Some (zstr "hi")))]%string)
      {| w_config := w_config ex_world; w_initial_msg := false |} /\
  w_initial_msg (send_msg (zstr "general") (Some (zstr "hi")) None
                   {| w_config := w_config ex_world;
                      w_initial_msg := false |}).1.2 = false.
Proof.
  destruct separator_only_first_send_msg as [H1 [H2 [H3 _]]].
  assert (Hch : get_channel_named (zstr "general") (w_config ex_world) =
                (inr (Some ex_general), w_config ex_world, []))
    by reflexivity.
  split; [exact Hch|]. split; [|split].
  - exact (H1 ex_world _ _ None ex_general _ eq_refl Hch).
  - exact (H2 (w_config ex_world) _ _ None ex_general _ Hch).
  - exact (H3 {| w_config := w_config ex_world; w_initial_msg := false |} _ _ None eq_refl).
Defined.

(** C9 (counterexample): on a fresh output front end, a first [send_dm]
    delivers no separator, and the [send_msg] after it still does. *)
Lemma first_send_dm_has_no_separator :
  let '(_, w1, o1) := send_dm (zstr "bob") (Some (zstr "hi")) None ex_world in
  let '(_, _, o2) := send_msg (zstr "general") (Some (zstr "hi")) None w1 in
  o1 = [SendMessage (TUser ex_bob) (zstr "hi" ++ [nl])] /\
  o2 = [SendMessage (TChannel ex_general) initial_text;
        SendMessage (TChannel ex_general) (zstr "hi" ++ [nl])].
Proof. vm_compute. split; reflexivity. Qed.

(* ================================================================== *)
(** * Further properties of the front end *)

(* ------------------------------------------------------------------ *)
(** ** Login *)



(** Without a token, [run_client] raises the missing-token error naming the
    configuration file, and leaves [_trying_login] set with the client not
    logged in; a later [run_client] then waits for good and changes
    nothing. *)
Theorem run_client_missing_token (c : cworld) :
  cw_logged_in c = false -> cw_trying_login c = false ->
  cw_data c !! (cw_category c, zstr "token") = None ->
  run_client c =
    (inl (CLBError (ErrMissingToken (cw_config_path c))),
     with_login true false c, []) /\
  run_client (with_login true false c) =
    (inl WaitsForever, with_login true false c, []).
Proof.
  intros H1 H2 H3. split.
  - unfold run_client, get_token, get_config, mbind, ST_bind, gets, modify, raise.
    rewrite H1. simpl. rewrite H2. simpl. rewrite H1, H3. reflexivity.
  - reflexivity.
Qed.

Lemma run_client_missing_token_witness :
  run_client ex_config_no_token =
    (inl (CLBError (ErrMissingToken (zstr "config.ini"))),
     with_login true false ex_config_no_token, []) /\
  run_client (with_login true false ex_config_no_token) =
    (inl WaitsForever, with_login true false ex_config_no_token, []).
Proof.
  exact (run_client_missing_token ex_config_no_token eq_refl eq_refl eq_refl).
Defined.

(* ------------------------------------------------------------------ *)
(** ** Unknown destinations and missing text *)

Lemma find_channel_absent (n : str) (chs : list Channel) :
  Forall (fun ch => channel_name ch <> n) chs ->
  List.find (fun ch => bool_decide (n = channel_name ch)) chs = None.
Proof.
  intros H. induction H as [|ch chs Hch _ IH]; [reflexivity|]. simpl.
  rewrite bool_decide_eq_false_2 by congruence. exact IH.
Qed.

(** With a bound server that has no channel of the given name, [_send_msg]
    raises the bad-channel error listing the server's text channels, sends
    nothing (not even the separator) and changes nothing. *)
Theorem _send_msg_unknown_channel (w : world) (cn : str)
  (text filename : option str) (s : Server) :
  cw_server (w_config w) = Some s ->
  Forall (fun ch => channel_name ch <> cn) (server_channels s) ->
  _send_msg cn text filename w =
  (inl (CLBError (ErrBadChannel cn
     (map channel_name (filter channel_is_text (server_channels s))))), w, []).
Proof.
  destruct w as [c b]. simpl. intros Hs Hno.
  unfold _send_msg, mbind, ST_bind at 1, lift at 1. simpl.
  rewrite (get_channel_named_bound cn c s Hs), find_channel_absent by exact Hno.
  unfold mbind, ST_bind, lift, get_channelnames, mbind, ST_bind, gets. simpl.
  rewrite Hs. reflexivity.
Qed.

Lemma _send_msg_unknown_channel_witness :
  _send_msg (zstr "random") (Some (zstr "hi")) None ex_world =
  (inl (CLBError (ErrBadChannel (zstr "random") [zstr "general"])), ex_world, []).
Proof.
  refine (_send_msg_unknown_channel ex_world (zstr "random") (Some (zstr "hi"))
            None ex_alpha eq_refl _).
  constructor; [|constructor]. intros H. vm_compute in H. discriminate.
Defined.

(** With a bound server whose member lookup finds no one of the given
    name, [_send_dm] raises the bad-user error listing the server's
    members, sends nothing and changes nothing. *)
Theorem _send_dm_unknown_user (c : cworld) (u : str)
  (text filename : option str) (s : Server) :
  cw_server c = Some s ->
  server_get_member_named s u = None ->
  _send_dm u text filename c =
  (inl (CLBError (ErrBadUser u (map member_name (server_members s)))), c, []).
Proof.
  intros Hs Hno. unfold _send_dm, mbind, ST_bind at 1.
  rewrite (get_user_named_bound u c s Hs), Hno.
  unfold get_usernames, mbind, ST_bind, gets. simpl. rewrite Hs. reflexivity.
Qed.

Lemma _send_dm_unknown_user_witness :
  _send_dm (zstr "carol") (Some (zstr "hi")) None (ex_config (Some ex_alpha) true) =
  (inl (CLBError (ErrBadUser (zstr "carol") [zstr "bob"])),
   ex_config (Some ex_alpha) true, []).
Proof.
  exact (_send_dm_unknown_user (ex_config (Some ex_alpha) true) (zstr "carol")
           (Some (zstr "hi")) None ex_alpha eq_refl eq_refl).
Defined.

(** [send_msg] with text [None] and no file, to a channel that resolves:
    [split_text(None)] raises [AttributeError], after the separator when
    the flag was still set (the flag is then cleared). *)
Theorem _send_msg_none_text (w : world) (cn : str) (ch : Channel) (c1 : cworld) :
  get_channel_named cn (w_config w) = (inr (Some ch), c1, []) ->
  _send_msg cn None None w =
  (inl AttributeError, {| w_config := c1; w_initial_msg := false |},
   if w_initial_msg w then [SendMessage (TChannel ch) initial_text] else []).
Proof.
  destruct w as [c []]; simpl; intros H;
    unfold _send_msg, mbind, ST_bind, lift, gets, modify; simpl; rewrite H;
    reflexivity.
Qed.

Lemma _send_msg_none_text_witness :
  _send_msg (zstr "general") None None ex_world =
  (inl AttributeError,
   {| w_config := ex_config (Some ex_alpha) true; w_initial_msg := false |},
   [SendMessage (TChannel ex_general) initial_text]).
Proof.
  exact (_send_msg_none_text ex_world (zstr "general") ex_general
           (ex_config (Some ex_alpha) true) eq_refl).
Defined.

(* ------------------------------------------------------------------ *)
(** ** Files *)

(** [_send_file] on a path [os.path.getsize] cannot stat raises [OSError]
    before sending anything; with content [None] it sends the file alone,
    once, without text. *)
Theorem _send_file_edges (c : cworld) (d : target) (fp : str) (content : pyval) :
  (~ fp ∈ cw_files c ->
   _send_file [("client", VClient); ("destination", VDest d);
               ("fp", VStr fp); ("content", content)]%string c =
   (inl OSError, c, [])) /\
  (fp ∈ cw_files c ->
   _send_file [("client", VClient); ("destination", VDest d);
               ("fp", VStr fp); ("content", VNone)]%string c =
   (inr tt, c, [SendFile d fp None])).
Proof.
  split; intros H; unfold _send_file; simpl;
    unfold _send_file_body, mbind, ST_bind, gets; simpl.
  - rewrite bool_decide_eq_false_2 by exact H. reflexivity.
  - rewrite bool_decide_eq_true_2 by exact H. reflexivity.
Qed.

Lemma _send_file_edges_witness :
  _send_file [("client", VClient); ("destination", VDest (TChannel ex_general));
              ("fp", VStr (zstr "g.txt")); ("content", VStr (zstr "hi"))]%string
             (ex_config None false) = (inl OSError, ex_config None false, []) /\
  _send_file [("client", VClient); ("destination", VDest (TChannel ex_general));
              ("fp", VStr (zstr "f.txt")); ("content", VNone)]%string
             (ex_config None false) =
    (inr tt, ex_config None false, [SendFile (TChannel ex_general) (zstr "f.txt") None]).
Proof.
  split.
  - refine (proj1 (_send_file_edges (ex_config None false) (TChannel ex_general)
                     (zstr "g.txt") (VStr (zstr "hi"))) _).
    intros H. apply list_elem_of_In in H. simpl in H.
    destruct H as [H|[]]. vm_compute in H. discriminate.
  - refine (proj2 (_send_file_edges (ex_config None false) (TChannel ex_general)
                     (zstr "f.txt") VNone) _).
    apply list_elem_of_In. left. reflexivity.
Defined.

(* ------------------------------------------------------------------ *)
(** ** Inbound messages other than a channel init *)

(** A message other than the initialization command changes nothing and
    reaches the callback once: as a channel command line from a channel,
    as a direct-message command line from a private channel; from any
    other kind of channel it raises [UnboundLocalError] with no callback. *)
Theorem on_message_plain (init_cmd : str) (msg : message) (c : cworld) :
  msg_content msg <> init_cmd ->
  on_message init_cmd msg c =
  match msg_channel msg with
  | TChannel ch =>
      (inr tt, c, [Callback (CmdLine_Msg (msg_content msg) (msg_author msg)
                                         (channel_name ch))])
  | TPrivate =>
      (inr tt, c, [Callback (CmdLine_DM (msg_content msg) (msg_author msg))])
  | _ => (inl UnboundLocalError, c, [])
  end.
Proof.
  intros H. unfold on_message. rewrite bool_decide_eq_false_2 by exact H.
  destruct (msg_channel msg); reflexivity.
Qed.

Lemma on_message_plain_witness :
  on_message (zstr "!init")
    {| msg_content := zstr "hello"; msg_author := zstr "bob";
       msg_channel := TPrivate; msg_server := None |} (ex_config None false) =
  (inr tt, ex_config None false,
   [Callback (CmdLine_DM (zstr "hello") (zstr "bob"))]).
Proof.
  refine (on_message_plain (zstr "!init")
            {| msg_content := zstr "hello"; msg_author := zstr "bob";
               msg_channel := TPrivate; msg_server := None |}
            (ex_config None false) _).
  intros H. vm_compute in H. discriminate.
Defined.

(** The initialization command outside a server (no [msg.server]) raises
    the init-context error: nothing is bound, nothing is sent and the
    callback is not reached. *)
Theorem on_message_init_outside_server (init_cmd : str) (msg : message)
  (c : cworld) :
  msg_content msg = init_cmd -> msg_server msg = None ->
  on_message init_cmd msg c = (inl (CLBError (ErrInitContext init_cmd)), c, []).
Proof.
  intros H1 H2. unfold on_message. rewrite bool_decide_eq_true_2 by exact H1.
  unfold init_client. rewrite H2. reflexivity.
Qed.

Lemma on_message_init_outside_server_witness :
  on_message (zstr "!init")
    {| msg_content := zstr "!init"; msg_author := zstr "bob";
       msg_channel := TPrivate; msg_server := None |} (ex_config None false) =
  (inl (CLBError (ErrInitContext (zstr "!init"))), ex_config None false, []).
Proof.
  exact (on_message_init_outside_server (zstr "!init")
           {| msg_content := zstr "!init"; msg_author := zstr "bob";
              msg_channel := TPrivate; msg_server := None |}
           (ex_config None false) eq_refl eq_refl).
Defined.

(* ------------------------------------------------------------------ *)
(** ** Segment lengths *)

Lemma Forall_removelast {A} (P : A -> Prop) (l : list A) :
  Forall P l -> Forall P (removelast l).
Proof.
  induction l as [|x r IH]; intros H; simpl; [constructor|].
  destruct r as [|y r]; [constructor|].
  inversion H; subst. constructor; auto.
Qed.

Lemma split_step_bound (result : list str) (line : str) :
  Forall (fun seg => (length seg <= 2000)%nat) result ->
  (length line < 2000)%nat ->
  Forall (fun seg => (length seg <= 2000)%nat) (split_step result line).
Proof.
  intros Hr Hl. unfold split_step, result_last, max_len.
  destruct (Nat.ltb _ _) eqn:E.
  - apply Nat.ltb_lt in E. apply Forall_app. split.
    + apply Forall_removelast, Hr.
    + constructor; [|constructor]. rewrite !length_app. simpl. lia.
  - apply Forall_app. split; [exact Hr|].
    constructor; [|constructor]. rewrite length_app. simpl. lia.
Qed.

(** When every line is shorter than 2000 characters, every segment has at
    most 2000 characters (2000 itself is reached, see C1). *)
Theorem split_text_segments_at_most_limit (text : str) :
  Forall (fun line => (length line < 2000)%nat) (split_nl text) ->
  Forall (fun seg => (length seg <= 2000)%nat) (split_text text).
Proof.
  unfold split_text. intros Hl.
  assert (Hr : Forall (fun seg => (length seg <= 2000)%nat) [@nil Z])
    by (repeat constructor; simpl; lia).
  revert Hr Hl. generalize [@nil Z].
  induction (split_nl text) as [|line lines IH]; intros result Hr Hl; simpl.
  - exact Hr.
  - inversion Hl; subst. apply IH; [apply split_step_bound; assumption | assumption].
Qed.

Lemma split_text_segments_at_most_limit_witness :
  Forall (fun line => (length line < 2000)%nat) (split_nl (zstr "ab
cd")) /\
  Forall (fun seg => (length seg <= 2000)%nat) (split_text (zstr "ab
cd")).
Proof.
  assert (H : Forall (fun line => (length line < 2000)%nat) (split_nl (zstr "ab
cd"))) by (simpl; repeat constructor; simpl; lia).
  split; [exact H | exact (split_text_segments_at_most_limit _ H)].
Defined.

Lemma fold_split_step_single (lines : list str) (acc : str) :
  (length acc + length (concat (map (fun l => l ++ [nl]) lines)) <= 2000)%nat ->
  fold_left split_step lines [acc] = [acc ++ concat (map (fun l => l ++ [nl]) lines)].
Proof.
  revert acc. induction lines as [|line lines IH]; intros acc H; simpl.
  - rewrite app_nil_r. reflexivity.
  - simpl in H. rewrite !length_app in H. simpl in H.
    unfold split_step at 2, result_last, max_len. simpl.
    destruct (Nat.ltb_spec (length acc + length line) 2000); [|lia].
    rewrite IH.
    + rewrite <- !app_assoc. reflexivity.
    + rewrite !length_app. simpl. lia.
Qed.

(** A text shorter than 2000 characters gives one segment: the text with a
    newline appended. *)
Theorem split_text_short (text : str) :
  (length text < 2000)%nat -> split_text text = [text ++ [nl]].
Proof.
  intros H. unfold split_text. rewrite fold_split_step_single.
  - rewrite split_nl_join. reflexivity.
  - rewrite split_nl_join, length_app. simpl. lia.
Qed.

Lemma split_text_short_witness :
  (length (zstr "ab
") < 2000)%nat /\ split_text (zstr "ab
") = [zstr "ab
" ++ [nl]].
Proof.
  assert (H : (length (zstr "ab
") < 2000)%nat) by (simpl; lia).
  split; [exact H | exact (split_text_short _ H)].
Defined.

(* ------------------------------------------------------------------ *)
(** ** No blank plain message *)

Lemma fix_content_not_blank (s : str) : forallb is_space (fix_content s) = false.
Proof.
  rewrite fix_content_spec. destruct (forallb is_space s) eqn:E.
  - reflexivity.
  - exact E.
Qed.

Definition not_blank_message (e : event) : Prop :=
  match e with SendMessage _ m => forallb is_space m = false | _ => True end.

(** Every plain message [_send_message] and [_send_file] send has a
    non-whitespace character: blank segments never reach
    [client.send_message]. *)
Theorem plain_messages_never_blank (c : cworld) (d : target) (fp text : str) :
  Forall not_blank_message
    (_send_message [("client", VClient); ("destination", VDest d);
                    ("content", VStr text)]%string c).2 /\
  Forall not_blank_message
    (_send_file [("client", VClient); ("destination", VDest d);
                 ("fp", VStr fp); ("content", VStr text)]%string c).2.
Proof.
  split.
  - unfold _send_message. simpl.
    rewrite (for_emit _ (fun seg => SendMessage d (fix_content seg))). simpl.
    apply List.Forall_forall. intros e He. apply in_map_iff in He as [seg [<- _]].
    apply fix_content_not_blank.
  - unfold _send_file. simpl. unfold _send_file_body, mbind, ST_bind at 1, gets.
    simpl. destruct (bool_decide _); [|constructor].
    unfold mbind, ST_bind.
    rewrite (for_emit _ (fun seg => SendMessage d (fix_content seg))).
    destruct (py_last (split_text text)); simpl; apply Forall_app; split.
    + apply List.Forall_forall. intros e He. apply in_map_iff in He as [seg [<- _]].
      apply fix_content_not_blank.
    + repeat constructor.
    + apply List.Forall_forall. intros e He. apply in_map_iff in He as [seg [<- _]].
      apply fix_content_not_blank.
    + constructor.
Qed.

(* ------------------------------------------------------------------ *)
(** ** Binding by name and restoring it from the store *)

(** [set_server_named] binds the first visible server of that name. *)
Lemma set_server_named_in_order (c : cworld) (name : str)
  (pre : list Server) (s : Server) (post : list Server) :
  cw_servers c = pre ++ s :: post ->
  server_name s = name ->
  Forall (fun s' => server_name s' <> name) pre ->
  set_server_named name c = (inr true, bind_server s c, []).
Proof.
  intros Hsv Hname Hpre. unfold set_server_named, mbind, ST_bind at 1, gets.
  simpl. rewrite Hsv, set_server_named_loop_skip by exact Hpre. simpl.
  rewrite bool_decide_eq_true_2 by (symmetry; exact Hname). reflexivity.
Qed.

(** [set_server_named] binds the first visible server carrying the name,
    whatever servers of the same name come after it, and stores that name
    under [servername]. *)
Theorem set_server_named_first_match (c : cworld) (name : str)
  (pre : list Server) (s : Server) (post : list Server) :
  cw_servers c = pre ++ s :: post ->
  server_name s = name ->
  Forall (fun s' => server_name s' <> name) pre ->
  set_server_named name c = (inr true, bind_server s c, []).
Proof.
  intros Hsv Hname Hpre. unfold set_server_named, mbind, ST_bind at 1, gets.
  simpl. rewrite Hsv, set_server_named_loop_skip by exact Hpre. simpl.
  rewrite bool_decide_eq_true_2 by (symmetry; exact Hname). reflexivity.
Qed.

(** [ex_config_dup] sees [ex_beta], [ex_alpha], [ex_alpha2]: the name
    ["Alpha"] binds [ex_alpha], not the later [ex_alpha2] of the same
    name. *)
Lemma set_server_named_first_match_witness :
  set_server_named (zstr "Alpha") ex_config_dup =
  (inr true, bind_server ex_alpha ex_config_dup, []).
Proof.
  refine (set_server_named_first_match ex_config_dup (zstr "Alpha")
           [ex_beta] ex_alpha [ex_alpha2] eq_refl eq_refl _).
  constructor; [|constructor]. intros H. vm_compute in H. discriminate.
Defined.

(** Round trip through the store: after [set_server s], a configuration
    that has lost its active server (a restart with the same data) gets
    [s] back from [get_server], through the stored name, as long as [s] is
    the first visible server of that name; the store is unchanged. *)
Theorem get_server_restores_binding (c : cworld) (pre : list Server)
  (s : Server) (post : list Server) :
  cw_servers c = pre ++ s :: post ->
  Forall (fun s' => server_name s' <> server_name s) pre ->
  get_server (with_server None (bind_server s c)) =
  (inr (Some s), bind_server s c, []).
Proof.
  intros Hsv Hpre.
  unfold get_server, mbind, ST_bind, gets, get_config. simpl.
  rewrite lookup_insert_eq.
  rewrite (set_server_named_in_order (with_server None (bind_server s c))
             (server_name s) pre s post Hsv eq_refl Hpre).
  unfold bind_server, with_data, with_server. simpl.
  rewrite insert_insert_eq. reflexivity.
Qed.

Lemma get_server_restores_binding_witness :
  get_server (with_server None (bind_server ex_alpha (ex_config None false))) =
  (inr (Some ex_alpha), bind_server ex_alpha (ex_config None false), []).
Proof.
  exact (get_server_restores_binding (ex_config None false) [] ex_alpha []
           eq_refl (List.Forall_nil _)).
Defined.

(* ------------------------------------------------------------------ *)
(** ** A whole [send_msg] without a file *)

(** On a logged-in client, [send_msg] with text and no file to a channel
    that resolves sends the separator if the flag is still set, then each
    segment of the text as a plain message (blank ones replaced), in
    order, and leaves the flag cleared. *)
Theorem send_msg_plain_delivery (w : world) (cn text : str) (ch : Channel)
  (c1 : cworld) :
  cw_logged_in (w_config w) = true ->
  get_channel_named cn (w_config w) = (inr (Some ch), c1, []) ->
  send_msg cn (Some text) None w =
  (inr tt, {| w_config := c1; w_initial_msg := false |},
   (if w_initial_msg w then [SendMessage (TChannel ch) initial_text] else []) ++
   map (fun seg => SendMessage (TChannel ch) (fix_content seg)) (split_text text)).
Proof.
  destruct w as [c b]. simpl. intros Hlog Hch.
  assert (Hrun : run_client c = (inr tt, c, [])).
  { unfold run_client, mbind, ST_bind, gets. rewrite Hlog. reflexivity. }
  assert (Hmsg : _send_message [("client", VClient);
                                ("destination", VDest (TChannel ch));
                                ("content", VStr text)]%string c1 =
                 (inr tt, c1, map (fun seg => SendMessage (TChannel ch)
                                                 (fix_content seg))
                                  (split_text text))).
  { unfold _send_message. simpl.
    apply (for_emit _ (fun seg => SendMessage (TChannel ch) (fix_content seg))). }
  unfold send_msg, _send_msg, mbind, ST_bind, lift, gets, modify. simpl.
  rewrite Hrun. simpl. rewrite Hch. simpl.
  destruct b; simpl; rewrite Hmsg; reflexivity.
Qed.

Lemma send_msg_plain_delivery_witness :
  send_msg (zstr "general") (Some (zstr " ")) None ex_world =
  (inr tt, {| w_config := w_config ex_world; w_initial_msg := false |},
   [SendMessage (TChannel ex_general) initial_text] ++
   map (fun seg => SendMessage (TChannel ex_general) (fix_content seg))
       (split_text (zstr " "))).
Proof.
  exact (send_msg_plain_delivery ex_world (zstr "general") (zstr " ") ex_general
           (w_config ex_world) eq_refl eq_refl).
Defined.
